(** * Archon MCP server: the Hypercorn runner

    A shallow embedding of [python/src/mcp_server/run_hypercorn.py]:
    the [main] routine, which reads [ARCHON_MCP_PORT], fills in a Hypercorn
    [Config], prints the startup banner and hands the FastMCP application to
    [hypercorn.asyncio.serve], and the [try]/[except] wrapper of the
    [__main__] block, which decides what the process prints last and how it
    exits.

    Conventions.
    - Python text is a Rocq [string]; a character stands for the code point
      with the same number (0 to 255).  The three pictographs of the console
      messages lie outside that range and appear as their UTF-8 bytes.
    - Python integers are [Z].
    - What the script uses and does not define (the environment, Hypercorn,
      the FastMCP application factory, the delivery of SIGINT) is gathered in
      a [world] record that the program reads; nothing is assumed about it.
    - The [import] statements and the [sys.path] update at the top of the
      module run before the [__main__] block and are left out. *)

From Stdlib Require Import ZArith String Ascii List Bool Lia DecimalString.
From Stdlib Require Import DecimalPos.
From stdpp Require Import base option strings gmap.
Import ListNotations.

Local Open Scope Z_scope.
Local Open Scope string_scope.

(** ** Exceptions *)

(** Why [int] rejected its argument: the text is no integer literal, or it
    has more digits than [sys.get_int_max_str_digits()] allows. *)
Inductive int_error :=
| InvalidLiteral (text : string)
| ExceedsDigitLimit (digits : nat).

(** The exceptions that can leave [main].  [ExceptionSubclass] stands for any
    class below [Exception] raised by a collaborator, [BaseExceptionSubclass]
    for the classes that derive from [BaseException] only ([SystemExit],
    [asyncio.CancelledError], [GeneratorExit]). *)
Inductive exn :=
| KeyboardInterrupt
| ValueError (why : int_error)
| ExceptionSubclass (cls msg : string)
| BaseExceptionSubclass (cls msg : string).

(** [isinstance(e, Exception)] *)
Definition is_Exception (e : exn) : bool :=
  match e with
  | ValueError _ | ExceptionSubclass _ _ => true
  | KeyboardInterrupt | BaseExceptionSubclass _ _ => false
  end.

Inductive outcome (A : Type) :=
| Return (a : A)
| Raise (e : exn).
Arguments Return {A} a.
Arguments Raise {A} e.

(** ** The builtin [int] on text, base 10 *)

Module PyInt.

Definition code (c : ascii) : N := N_of_ascii c.

(** [Py_ISSPACE]: tab, line feed, vertical tab, form feed, carriage return,
    space. *)
Definition Py_ISSPACE (c : ascii) : bool :=
  ((9 <=? code c) && (code c <=? 13))%N || (code c =? 32)%N.

(** [Py_UNICODE_ISSPACE] on the code points from 127 to 255: next line
    (U+0085) and no-break space (U+00A0). *)
Definition Py_UNICODE_ISSPACE_high (c : ascii) : bool :=
  (code c =? 133)%N || (code c =? 160)%N.

Fixpoint is_ascii_text (s : string) : bool :=
  match s with
  | EmptyString => true
  | String c r => (code c <? 128)%N && is_ascii_text r
  end.

(** The loop of [_PyUnicode_TransformDecimalAndSpaceToASCII]: characters
    below 127 are kept, spaces become [" "], decimal digits become ASCII
    digits (there is none from 127 to 255), and the first other character
    becomes ["?"] and ends the output. *)
Fixpoint transform_chars (s : string) : string :=
  match s with
  | EmptyString => EmptyString
  | String c r =>
      if (code c <? 127)%N then String c (transform_chars r)
      else if Py_UNICODE_ISSPACE_high c then String " " (transform_chars r)
      else String "?" EmptyString
  end.

(** Text that is ASCII already is returned as it is. *)
Definition TransformDecimalAndSpaceToASCII (s : string) : string :=
  if is_ascii_text s then s else transform_chars s.

Fixpoint skip_spaces (s : string) : string :=
  match s with
  | String c r => if Py_ISSPACE c then skip_spaces r else s
  | EmptyString => s
  end.

(** [_PyLong_DigitValue[c]] when it is below 10. *)
Definition digit_value (c : ascii) : option Z :=
  if ((48 <=? code c) && (code c <=? 57))%N
  then Some (Z.of_N (code c) - 48) else None.

Definition is_underscore (c : ascii) : bool := (code c =? 95)%N.

(** State of the digit scan: whether the previous character was an
    underscore, the digits counted so far, the value accumulated so far. *)
Record scan_state := { prev_us : bool; ndigits : nat; acc : Z }.

(** The scanning loop of [long_from_string_base]: it consumes digits and
    single underscores; [None] on a doubled or trailing underscore, otherwise
    the final state and the unread rest. *)
Fixpoint scan (s : string) (st : scan_state) : option (scan_state * string) :=
  match s with
  | String c r =>
      match digit_value c with
      | Some d =>
          scan r {| prev_us := false; ndigits := S (ndigits st);
                    acc := 10 * acc st + d |}
      | None =>
          if is_underscore c then
            if prev_us st then None
            else scan r {| prev_us := true; ndigits := ndigits st;
                           acc := acc st |}
          else if prev_us st then None else Some (st, s)
      end
  | EmptyString => if prev_us st then None else Some (st, s)
  end.

(** [sys.int_info.default_max_str_digits] *)
Definition max_str_digits : nat := 4300.

(** An optional ["+"] or ["-"]. *)
Definition split_sign (s : string) : bool * string :=
  match s with
  | String c r =>
      if (code c =? 43)%N then (false, r)
      else if (code c =? 45)%N then (true, r)
      else (false, s)
  | EmptyString => (false, s)
  end.

(** [PyLong_FromString(buf, &end, 10)] followed by the check of
    [PyLong_FromUnicodeObject] that the whole buffer was read: leading
    spaces, a sign, no leading underscore, the digits, the digit limit, at
    least one digit, trailing spaces, nothing else. *)
Definition from_string (orig buf : string) : int_error + Z :=
  let (negative, body) := split_sign (skip_spaces buf) in
  match body with
  | String c _ =>
      if is_underscore c then inl (InvalidLiteral orig)
      else
        match scan body {| prev_us := false; ndigits := 0; acc := 0 |} with
        | None => inl (InvalidLiteral orig)
        | Some (st, rest) =>
            if (max_str_digits <? ndigits st)%nat
            then inl (ExceedsDigitLimit (ndigits st))
            else if (ndigits st =? 0)%nat then inl (InvalidLiteral orig)
            else
              match skip_spaces rest with
              | EmptyString => inr (if negative then - acc st else acc st)
              | String _ _ => inl (InvalidLiteral orig)
              end
        end
  | EmptyString => inl (InvalidLiteral orig)
  end.

(** [int(s)] *)
Definition int (s : string) : int_error + Z :=
  from_string s (TransformDecimalAndSpaceToASCII s).

(** [str(n)], which is also what an f-string field [{n}] produces. *)
Definition str (n : Z) : string := NilZero.string_of_int (Z.to_int n).

End PyInt.

(** ** Hypercorn's configuration object *)

(** The attributes of [hypercorn.config.Config] that [main] assigns. *)
Record Config := {
  bind : list string;
  alpn_protocols : list string;
  workers : Z;
  worker_class : string;
  accesslog : option string;
  errorlog : option string;
  loglevel : string
}.

(** Attribute assignment, one function per attribute. *)
Definition set_bind (v : list string) (c : Config) : Config :=
  {| bind := v; alpn_protocols := alpn_protocols c; workers := workers c;
     worker_class := worker_class c; accesslog := accesslog c;
     errorlog := errorlog c; loglevel := loglevel c |}.

Definition set_alpn_protocols (v : list string) (c : Config) : Config :=
  {| bind := bind c; alpn_protocols := v; workers := workers c;
     worker_class := worker_class c; accesslog := accesslog c;
     errorlog := errorlog c; loglevel := loglevel c |}.

Definition set_workers (v : Z) (c : Config) : Config :=
  {| bind := bind c; alpn_protocols := alpn_protocols c; workers := v;
     worker_class := worker_class c; accesslog := accesslog c;
     errorlog := errorlog c; loglevel := loglevel c |}.

Definition set_worker_class (v : string) (c : Config) : Config :=
  {| bind := bind c; alpn_protocols := alpn_protocols c; workers := workers c;
     worker_class := v; accesslog := accesslog c;
     errorlog := errorlog c; loglevel := loglevel c |}.

Definition set_accesslog (v : option string) (c : Config) : Config :=
  {| bind := bind c; alpn_protocols := alpn_protocols c; workers := workers c;
     worker_class := worker_class c; accesslog := v;
     errorlog := errorlog c; loglevel := loglevel c |}.

Definition set_errorlog (v : option string) (c : Config) : Config :=
  {| bind := bind c; alpn_protocols := alpn_protocols c; workers := workers c;
     worker_class := worker_class c; accesslog := accesslog c;
     errorlog := v; loglevel := loglevel c |}.

Definition set_loglevel (v : string) (c : Config) : Config :=
  {| bind := bind c; alpn_protocols := alpn_protocols c; workers := workers c;
     worker_class := worker_class c; accesslog := accesslog c;
     errorlog := errorlog c; loglevel := v |}.

(** ** What the process observes and does *)

(** The ASGI application returned by FastMCP, an opaque handle. *)
Inductive asgi_app := AsgiApp (handle : nat).

Inductive stream := Stdout | Stderr.

(** What is written: a line of text, a line made of a prefix followed by
    [str(e)], or the formatted traceback of [e]. *)
Inductive content :=
| Text (line : string)
| TextStr (prefix : string) (e : exn)
| Traceback (e : exn).

Inductive event :=
| Output (to : stream) (what : content)
| CallStreamableHttpApp
| CallServe (app : asgi_app) (config : Config).

(** Everything the script depends on and does not define: [os.environ] when
    the process starts; the attributes of a fresh [Config()]; what
    [mcp.streamable_http_app()] does; what [asyncio.run(serve(app, config))]
    does; and the delivery of SIGINT, where [Some k] says that it arrives
    when [main] is about to run its statement number [k] (counted from 0),
    at which point Python raises [KeyboardInterrupt].  A SIGINT that arrives
    inside [serve] is part of what [asyncio.run(serve(app, config))] does. *)
Record world := {
  environ : gmap string string;
  fresh_Config : Config;
  streamable_http_app_result : outcome asgi_app;
  serve_result : asgi_app -> Config -> outcome unit;
  sigint : option nat
}.

(** ** A monad for statements: reader of the world, state, exceptions *)

(** The number of statements of [main] run so far and the events so far. *)
Record state := { clock : nat; trace : list event }.

Definition M (A : Type) : Type := world -> state -> outcome A * state.

Definition ret {A} (a : A) : M A := fun _ s => (Return a, s).

Definition raise {A} (e : exn) : M A := fun _ s => (Raise e, s).

Definition bind_M {A B} (m : M A) (k : A -> M B) : M B :=
  fun w s =>
    match m w s with
    | (Return a, s') => k a w s'
    | (Raise e, s') => (Raise e, s')
    end.

Notation "x <- m ; k" := (bind_M m (fun x => k))
  (at level 100, m at next level, right associativity).
Notation "m ;; k" := (bind_M m (fun _ => k))
  (at level 100, right associativity).

Definition emit (e : event) : M unit :=
  fun _ s => (Return tt, {| clock := clock s; trace := trace s ++ [e] |}).

(** One statement of [main]: a pending SIGINT is raised before it runs,
    otherwise it runs and the statement counter advances. *)
Definition stmt {A} (m : M A) : M A :=
  fun w s =>
    if decide (sigint w = Some (clock s)) then (Raise KeyboardInterrupt, s)
    else
      match m w s with
      | (r, s') => (r, {| clock := S (clock s'); trace := trace s' |})
      end.

(** ** The library calls of the script *)

(** [os.getenv(key, default)] *)
Definition os_getenv (key default_value : string) : M string :=
  fun w s => (Return (default default_value (environ w !! key)), s).

(** [int(text)] *)
Definition int (text : string) : M Z :=
  match PyInt.int text with
  | inr n => ret n
  | inl why => raise (ValueError why)
  end.

(** [Config()] *)
Definition new_Config : M Config := fun w s => (Return (fresh_Config w), s).

(** [print(line)] *)
Definition print (line : string) : M unit := emit (Output Stdout (Text line)).

(** [mcp.streamable_http_app()] *)
Definition mcp_streamable_http_app : M asgi_app :=
  emit CallStreamableHttpApp ;;
  fun w s => (streamable_http_app_result w, s).

(** [asyncio.run(serve(app, config))] *)
Definition asyncio_run_serve (app : asgi_app) (config : Config) : M unit :=
  emit (CallServe app config) ;;
  fun w s => (serve_result w app config, s).

(** ** The script *)

(** The local variables of [main] once the configuration is complete. *)
Record settings := { host : string; port : Z; config : Config }.

(** [main], from [host = "0.0.0.0"] to [config.loglevel = "INFO"]. *)
Definition configure : M settings :=
  host <- stmt (ret "0.0.0.0") ;
  port <- stmt (v <- os_getenv "ARCHON_MCP_PORT" "8051" ; int v) ;
  config <- stmt new_Config ;
  config <- stmt (ret (set_bind [host ++ ":" ++ PyInt.str port] config)) ;
  config <- stmt (ret (set_alpn_protocols ["h2"; "http/1.1"] config)) ;
  config <- stmt (ret (set_workers 1 config)) ;
  config <- stmt (ret (set_worker_class "asyncio" config)) ;
  config <- stmt (ret (set_accesslog (Some "-") config)) ;
  config <- stmt (ret (set_errorlog (Some "-") config)) ;
  config <- stmt (ret (set_loglevel "INFO" config)) ;
  ret {| host := host; port := port; config := config |}.

(** [main], the five [print] statements. *)
Definition banner (host : string) (port : Z) : M unit :=
  stmt (print "🚀 Starting MCP server with Hypercorn") ;;
  stmt (print ("   Host: " ++ host)) ;;
  stmt (print ("   Port: " ++ PyInt.str port)) ;;
  stmt (print "   HTTP/2: Enabled") ;;
  stmt (print ("   URL: http://" ++ host ++ ":" ++ PyInt.str port ++ "/mcp")).

Definition main : M unit :=
  c <- configure ;
  banner (host c) (port c) ;;
  app <- stmt mcp_streamable_http_app ;
  stmt (asyncio_run_serve app (config c)).

(** How the process ends: with an exit status, or with an exception that the
    script does not handle and leaves to the interpreter. *)
Inductive ending :=
| Exit (status : Z)
| Unhandled (e : exn).

Record process := { events : list event; ended : ending }.

Definition initial : state := {| clock := 0; trace := [] |}.

(** The [if __name__ == "__main__":] block.  Falling off the end of the
    script is exit status 0; [sys.exit(1)] is exit status 1. *)
Definition script (w : world) : process :=
  match main w initial with
  | (Return _, s) => {| events := trace s; ended := Exit 0 |}
  | (Raise KeyboardInterrupt, s) =>
      {| events := trace s ++
                   [Output Stdout (Text "👋 MCP server stopped by user")];
         ended := Exit 0 |}
  | (Raise e, s) =>
      if is_Exception e then
        {| events := trace s ++
                     [Output Stdout (TextStr "💥 Fatal error: " e);
                      Output Stderr (Traceback e)];
           ended := Exit 1 |}
      else {| events := trace s; ended := Unhandled e |}
  end.

(** ** Expected values *)

(** The text handed to [int]: the variable, or the default ["8051"]. *)
Definition port_text (w : world) : string :=
  default "8051" (environ w !! "ARCHON_MCP_PORT").

(** The settings for port [n]. *)
Definition settings_of (n : Z) : settings :=
  {| host := "0.0.0.0"; port := n;
     config := {| bind := ["0.0.0.0:" ++ PyInt.str n];
                  alpn_protocols := ["h2"; "http/1.1"];
                  workers := 1; worker_class := "asyncio";
                  accesslog := Some "-"; errorlog := Some "-";
                  loglevel := "INFO" |} |}.

(** The startup banner for port [n]. *)
Definition banner_events (n : Z) : list event :=
  [ Output Stdout (Text "🚀 Starting MCP server with Hypercorn");
    Output Stdout (Text "   Host: 0.0.0.0");
    Output Stdout (Text ("   Port: " ++ PyInt.str n));
    Output Stdout (Text "   HTTP/2: Enabled");
    Output Stdout (Text ("   URL: http://0.0.0.0:" ++ PyInt.str n ++ "/mcp")) ].

Definition stopped_notice : event :=
  Output Stdout (Text "👋 MCP server stopped by user").

Definition fatal_report (e : exn) : list event :=
  [ Output Stdout (TextStr "💥 Fatal error: " e); Output Stderr (Traceback e) ].

(** What a run wrote to one stream, in order. *)
Fixpoint written_to (st : stream) (l : list event) : list content :=
  match l with
  | Output st' c :: r =>
      match st, st' with
      | Stdout, Stdout | Stderr, Stderr => c :: written_to st r
      | _, _ => written_to st r
      end
  | _ :: r => written_to st r
  | [] => []
  end.

(** A value of the variable that [int] reads as a positive integer. *)
Definition positive_integer_text (v : string) : bool :=
  match PyInt.int v with
  | inr n => Z.ltb 0 n
  | inl _ => false
  end.


(** ** Plain decimal literals *)

Module DecimalLiteral.

Fixpoint all_digits (s : string) : bool :=
  match s with
  | EmptyString => true
  | String c r =>
      (48 <=? N_of_ascii c)%N && (N_of_ascii c <=? 57)%N && all_digits r
  end.

(** Horner evaluation, most significant digit first. *)
Fixpoint value_from (a : Z) (s : string) : Z :=
  match s with
  | EmptyString => a
  | String c r => value_from (10 * a + (Z.of_N (N_of_ascii c) - 48)) r
  end.

Definition value (s : string) : Z := value_from 0 s.

End DecimalLiteral.

(** ** Sample worlds *)

(** The values Hypercorn documents for a fresh [Config()]. *)
Definition hypercorn_defaults : Config :=
  {| bind := ["127.0.0.1:8000"]; alpn_protocols := ["h2"; "http/1.1"];
     workers := 1; worker_class := "asyncio"; accesslog := None;
     errorlog := Some "-"; loglevel := "INFO" |}.

Definition sample_world (env : gmap string string) (served : outcome unit)
    (sig : option nat) : world :=
  {| environ := env; fresh_Config := hypercorn_defaults;
     streamable_http_app_result := Return (AsgiApp 0);
     serve_result := fun _ _ => served;
     sigint := sig |}.

(** The variable is ["9000"] and [asyncio.run(serve(app, config))] ends in
    [KeyboardInterrupt]. *)
Definition world_9000 : world :=
  sample_world {[ "ARCHON_MCP_PORT" := "9000" ]} (Raise KeyboardInterrupt) None.

(** The variable is ["abc"]. *)
Definition world_abc : world :=
  sample_world {[ "ARCHON_MCP_PORT" := "abc" ]} (Return tt) None.

(** The variable is not set. *)
Definition world_unset : world := sample_world ∅ (Return tt) None.

(** The variable is ["9000"] and Ctrl-C is pressed during the banner, when
    the third [print] is about to run. *)
Definition world_interrupted_in_banner : world :=
  sample_world {[ "ARCHON_MCP_PORT" := "9000" ]} (Return tt) (Some 12%nat).

(** Another process with the same variable: more variables, other defaults
    in [Config()], no application. *)
Definition world_9000_elsewhere : world :=
  {| environ := {[ "ARCHON_MCP_PORT" := "9000"; "HOME" := "/root" ]};
     fresh_Config := set_workers 4 (set_bind ["[::]:80"] hypercorn_defaults);
     streamable_http_app_result :=
       Raise (ExceptionSubclass "RuntimeError" "no app");
     serve_result := fun _ _ => Return tt;
     sigint := None |}.

(** ** The shape of a run *)

(** The one sequence of events [main] works through: the banner, the
    creation of the application and, when there is an application, the call
    of [serve].  It is empty when [int] rejects the port text. *)
Definition full_trace (w : world) : list event :=
  match PyInt.int (port_text w) with
  | inl _ => []
  | inr n =>
      banner_events n ++
      CallStreamableHttpApp ::
      match streamable_http_app_result w with
      | Return app => [CallServe app (config (settings_of n))]
      | Raise _ => []
      end
  end.

(** How often [serve] was called. *)
Fixpoint count_serve (l : list event) : nat :=
  match l with
  | CallServe _ _ :: r => S (count_serve r)
  | _ :: r => count_serve r
  | [] => O
  end.

(** How often the application factory was called. *)
Fixpoint count_factory (l : list event) : nat :=
  match l with
  | CallStreamableHttpApp :: r => S (count_factory r)
  | _ :: r => count_factory r
  | [] => O
  end.

(** ** Port texts around a decimal literal *)

(** Text made of [Py_ISSPACE] characters only; the empty text is one. *)
Fixpoint all_spaces (s : string) : bool :=
  match s with
  | EmptyString => true
  | String c r => PyInt.Py_ISSPACE c && all_spaces r
  end.

Inductive sign := Unsigned | Plus | Minus.

Definition sign_text (sg : sign) : string :=
  match sg with
  | Unsigned => ""
  | Plus => "+"
  | Minus => "-"
  end.

Definition signed (sg : sign) (n : Z) : Z :=
  match sg with
  | Minus => - n
  | Unsigned | Plus => n
  end.

(** 4301 times the digit 1. *)
Definition long_literal : string :=
  string_of_list_ascii (repeat "1"%char 4301).

(** ** More sample worlds *)

(** The server returns by itself. *)
Definition world_graceful : world :=
  sample_world {[ "ARCHON_MCP_PORT" := "9000" ]} (Return tt) None.

(** The server ends in [SystemExit]. *)
Definition world_system_exit : world :=
  sample_world {[ "ARCHON_MCP_PORT" := "9000" ]}
    (Raise (BaseExceptionSubclass "SystemExit" "3")) None.

(** The variable is set and empty. *)
Definition world_empty : world :=
  sample_world {[ "ARCHON_MCP_PORT" := "" ]} (Return tt) None.

(** The variable is padded, signed and has a leading zero. *)
Definition world_padded : world :=
  sample_world {[ "ARCHON_MCP_PORT" := " +09000 " ]} (Return tt) None.

(** The variable has 4301 digits. *)
Definition world_long : world :=
  sample_world {[ "ARCHON_MCP_PORT" := long_literal ]} (Return tt) None.

(** ** Hypercorn and SIGINT *)

(** What [asyncio.run(serve(app, config))] does when SIGINT arrives while
    Hypercorn sets up its listener or serves.  Line 52 calls [serve] without
    a [shutdown_trigger], so Hypercorn's [worker_serve]
    (hypercorn/asyncio/run.py) first installs its own handler for SIGINT and
    only then creates the sockets and accepts connections.  The handler sets
    an event; the server shuts down, the [ShutdownError] or
    [KeyboardInterrupt] of the shutdown is swallowed, and [serve] returns.
    No [KeyboardInterrupt] reaches [main]. *)
Definition hypercorn_serve_interrupted : outcome unit := Return tt.

(** The variable is ["9000"] and Ctrl-C is pressed while Hypercorn sets up
    its listener or serves. *)
Definition world_sigint_in_serve : world :=
  sample_world {[ "ARCHON_MCP_PORT" := "9000" ]} hypercorn_serve_interrupted None.

(** * Properties *)

(** ** [int] on examples *)

Example int_9000 : PyInt.int "9000" = inr 9000.
Proof. reflexivity. Qed.

Example int_padded : PyInt.int "  +1_000 " = inr 1000.
Proof. reflexivity. Qed.

Example int_negative : PyInt.int "-5" = inr (-5).
Proof. reflexivity. Qed.

Example int_zero : PyInt.int "0" = inr 0.
Proof. reflexivity. Qed.

Example int_leading_zeros : PyInt.int "007" = inr 7.
Proof. reflexivity. Qed.

Example int_empty : PyInt.int "" = inl (InvalidLiteral "").
Proof. reflexivity. Qed.

Example int_double_underscore : PyInt.int "1__0" = inl (InvalidLiteral "1__0").
Proof. reflexivity. Qed.

Example int_trailing_underscore : PyInt.int "1_" = inl (InvalidLiteral "1_").
Proof. reflexivity. Qed.

Example int_hex : PyInt.int "0x10" = inl (InvalidLiteral "0x10").
Proof. reflexivity. Qed.

Example int_float : PyInt.int "80.51" = inl (InvalidLiteral "80.51").
Proof. reflexivity. Qed.

Example str_examples :
  PyInt.str 9000 = "9000" /\ PyInt.str 0 = "0" /\ PyInt.str (-5) = "-5".
Proof. repeat split; reflexivity. Qed.

(** ** [int] on plain decimal literals *)

Section DigitCharacters.
Import PyInt.
Variable c : ascii.
Hypothesis Hc : ((48 <=? N_of_ascii c) && (N_of_ascii c <=? 57))%N = true.

Lemma digit_range : (48 <= code c <= 57)%N.
Proof.
  apply andb_prop in Hc as [H1 H2].
  apply N.leb_le in H1, H2. unfold code. lia.
Qed.

Lemma digit_value_digit : digit_value c = Some (Z.of_N (N_of_ascii c) - 48).
Proof. unfold digit_value, code. rewrite Hc. reflexivity. Qed.

Lemma digit_not_space : Py_ISSPACE c = false.
Proof.
  pose proof digit_range. unfold Py_ISSPACE.
  apply orb_false_intro;
    [apply andb_false_iff; right; apply N.leb_gt | apply N.eqb_neq]; lia.
Qed.

Lemma digit_not_underscore : is_underscore c = false.
Proof. pose proof digit_range. unfold is_underscore. apply N.eqb_neq. lia. Qed.

Lemma digit_is_ascii : (code c <? 128)%N = true.
Proof. pose proof digit_range. apply N.ltb_lt. lia. Qed.

Lemma digit_not_sign r : split_sign (String c r) = (false, String c r).
Proof.
  pose proof digit_range. unfold split_sign.
  rewrite (proj2 (N.eqb_neq (code c) 43)) by lia.
  rewrite (proj2 (N.eqb_neq (code c) 45)) by lia. reflexivity.
Qed.

End DigitCharacters.

Lemma all_digits_ascii s :
  DecimalLiteral.all_digits s = true -> PyInt.is_ascii_text s = true.
Proof.
  induction s as [|c r IH]; [reflexivity|].
  cbn [DecimalLiteral.all_digits PyInt.is_ascii_text].
  intros [Hc Hr]%andb_prop. rewrite (digit_is_ascii c Hc). cbn. auto.
Qed.

Lemma scan_all_digits s : forall n a,
  DecimalLiteral.all_digits s = true ->
  PyInt.scan s {| PyInt.prev_us := false; PyInt.ndigits := n; PyInt.acc := a |} =
    Some ({| PyInt.prev_us := false;
             PyInt.ndigits := n + String.length s;
             PyInt.acc := DecimalLiteral.value_from a s |}, EmptyString).
Proof.
  induction s as [|c r IH]; intros n a.
  - intros _. cbn. rewrite Nat.add_0_r. reflexivity.
  - cbn [DecimalLiteral.all_digits]. intros [Hc Hr]%andb_prop.
    cbn [PyInt.scan]. rewrite (digit_value_digit c Hc).
    cbn [PyInt.prev_us PyInt.ndigits PyInt.acc].
    rewrite (IH _ _ Hr). cbn [String.length DecimalLiteral.value_from].
    rewrite Nat.add_succ_r. reflexivity.
Qed.

(** A non-empty run of at most 4300 ASCII digits is read as its decimal
    value. *)
Lemma int_decimal_literal s :
  s <> EmptyString ->
  DecimalLiteral.all_digits s = true ->
  (String.length s <= PyInt.max_str_digits)%nat ->
  PyInt.int s = inr (DecimalLiteral.value s).
Proof.
  intros Hne Hd Hlen. unfold PyInt.int, PyInt.TransformDecimalAndSpaceToASCII.
  rewrite (all_digits_ascii s Hd).
  destruct s as [|c r]; [congruence|].
  pose proof Hd as Hd'. cbn [DecimalLiteral.all_digits] in Hd'.
  apply andb_prop in Hd' as [Hc Hr].
  unfold PyInt.from_string. cbn [PyInt.skip_spaces].
  rewrite (digit_not_space c Hc), (digit_not_sign c Hc).
  rewrite (digit_not_underscore c Hc), (scan_all_digits _ _ _ Hd).
  cbn [PyInt.ndigits PyInt.acc].
  rewrite Nat.add_0_l.
  rewrite (proj2 (Nat.ltb_ge _ _) Hlen).
  cbn [String.length]. cbn [Nat.eqb PyInt.skip_spaces]. reflexivity.
Qed.

(** ** Running the statements *)

Section Inversion.
Context {A B : Type}.

Lemma bind_Return (m : M A) (k : A -> M B) w s b s' :
  bind_M m k w s = (Return b, s') ->
  exists a s0, m w s = (Return a, s0) /\ k a w s0 = (Return b, s').
Proof.
  unfold bind_M. destruct (m w s) as [[a|e] s0]; [eauto | discriminate].
Qed.

Lemma stmt_Return (m : M A) w s a s' :
  stmt m w s = (Return a, s') ->
  exists s0, m w s = (Return a, s0) /\
             s' = {| clock := S (clock s0); trace := trace s0 |}.
Proof.
  unfold stmt. case_decide; [discriminate|].
  destruct (m w s) as [r s0]. intros [= -> <-]. eauto.
Qed.

End Inversion.

(** Whatever the state and the interrupts, the settings [configure] returns
    are those of the integer read from the environment. *)
Lemma configure_Return w s c s' :
  configure w s = (Return c, s') ->
  exists n, PyInt.int (port_text w) = inr n /\ c = settings_of n.
Proof.
  unfold configure. intros H.
  repeat match type of H with
  | bind_M _ _ _ _ = _ => apply bind_Return in H as (? & ? & ?%stmt_Return & H)
  end.
  repeat match goal with
  | H : exists _, _ |- _ => destruct H as (? & H & ->)
  end.
  unfold new_Config, bind_M, os_getenv, int in *. unfold ret, raise in *.
  fold (port_text w) in *.
  destruct (PyInt.int (port_text w)) as [why|n]; [discriminate|].
  simplify_eq. eexists. split; reflexivity.
Qed.

Arguments PyInt.int : simpl never.
Arguments PyInt.str : simpl never.

Ltac unfold_program :=
  unfold script, main, configure, banner, mcp_streamable_http_app,
    asyncio_run_serve, print, emit, bind_M, stmt, os_getenv, int, new_Config,
    ret, raise, initial in *.

(** Without an interrupt, [configure] runs its ten statements, or stops at
    the second. *)
Lemma configure_quiet w :
  sigint w = None ->
  configure w initial =
    match PyInt.int (port_text w) with
    | inr n => (Return (settings_of n), {| clock := 10; trace := [] |})
    | inl why => (Raise (ValueError why), {| clock := 2; trace := [] |})
    end.
Proof.
  intros Hq. unfold port_text. destruct w as [env c0 ao so sg].
  cbn in Hq. subst sg. unfold_program. cbn.
  destruct (PyInt.int _) as [why|n]; reflexivity.
Qed.

(** Without an interrupt, [main] stops at [int], at the application factory,
    or goes on to [serve]. *)
Lemma main_quiet w :
  sigint w = None ->
  main w initial =
    match PyInt.int (port_text w) with
    | inl why => (Raise (ValueError why), {| clock := 2; trace := [] |})
    | inr n =>
        match streamable_http_app_result w with
        | Raise e =>
            (Raise e, {| clock := 16;
                         trace := banner_events n ++ [CallStreamableHttpApp] |})
        | Return app =>
            (serve_result w app (config (settings_of n)),
             {| clock := 17;
                trace := banner_events n ++
                         [CallStreamableHttpApp;
                          CallServe app (config (settings_of n))] |})
        end
    end.
Proof.
  intros Hq. unfold port_text. destruct w as [env c0 ao so sg].
  cbn in Hq. subst sg. unfold_program. cbn.
  destruct (PyInt.int _) as [why|n]; [reflexivity|].
  cbn. destruct ao as [app|e]; reflexivity.
Qed.

(** Stepping through [main] one statement at a time: either the interrupt
    arrives at this statement, which ends the run, or the statement runs. *)
Ltac stop_here := intros [= <- <-]; cbn; intuition discriminate.
Ltac next_stmt := case_decide; [stop_here|]; cbn.

(** If [serve] was called at all, everything before it ran. *)
Lemma main_serve_inv w r s app cfg :
  main w initial = (r, s) ->
  In (CallServe app cfg) (trace s) ->
  exists n, PyInt.int (port_text w) = inr n /\
            cfg = config (settings_of n) /\
            trace s = (banner_events n ++
                       [CallStreamableHttpApp; CallServe app cfg])%list.
Proof.
  unfold port_text. destruct w as [env c0 ao so sg].
  unfold_program. cbn.
  do 2 next_stmt.
  destruct (PyInt.int _) as [why|n]; cbn; [stop_here|].
  do 14 next_stmt.
  destruct ao as [a|e]; cbn; [|stop_here].
  next_stmt.
  intros [= <- <-]; cbn. intros Hin. exists n. split; [reflexivity|].
  assert (CallServe a (config (settings_of n)) = CallServe app cfg) as [= -> <-]
    by intuition discriminate.
  split; reflexivity.
Qed.


(** The events the [__main__] block adds after [main] contain no call. *)
Lemma script_events w :
  exists extra,
    events (script w) = (trace (snd (main w initial)) ++ extra)%list /\
    forall app cfg, ~ In (CallServe app cfg) extra.
Proof.
  unfold script. destruct (main w initial) as [[u|e] s]; cbn [snd].
  - exists []. rewrite app_nil_r. split; [reflexivity|]. intros ? ? [].
  - destruct e; cbn [is_Exception events];
      try (exists []; rewrite app_nil_r; split; [reflexivity|]; intros ? ? []);
      eexists; (split; [reflexivity|]); cbn; intuition discriminate.
Qed.

(** A decimal literal in the variable becomes the port. *)
Corollary configure_decimal_literal w p :
  sigint w = None ->
  environ w !! "ARCHON_MCP_PORT" = Some p ->
  p <> EmptyString ->
  DecimalLiteral.all_digits p = true ->
  (String.length p <= PyInt.max_str_digits)%nat ->
  fst (configure w initial) = Return (settings_of (DecimalLiteral.value p)).
Proof.
  intros Hq Hp Hne Hd Hlen. rewrite (configure_quiet w Hq).
  unfold port_text. rewrite Hp. simpl.
  rewrite (int_decimal_literal p Hne Hd Hlen). reflexivity.
Qed.

(** ** The properties of the specification *)

(** C1, as stated, fails.  With [ARCHON_MCP_PORT=abc], a value that is not a
    positive integer, [configure] produces no configuration at all, let alone
    one with port 8051: [int] raises [ValueError], and the process reports a
    fatal error and exits with status 1. *)
Lemma C1_counterexample :
  positive_integer_text "abc" = false /\
  fst (configure world_abc initial) = Raise (ValueError (InvalidLiteral "abc")) /\
  ~ (exists c, fst (configure world_abc initial) = Return c /\ port c = 8051) /\
  script world_abc =
    {| events := fatal_report (ValueError (InvalidLiteral "abc"));
       ended := Exit 1 |}.
Proof.
  assert (fst (configure world_abc initial) =
          Raise (ValueError (InvalidLiteral "abc"))) as H
    by (vm_compute; reflexivity).
  split; [vm_compute; reflexivity|].
  split; [exact H|].
  split; [|vm_compute; reflexivity].
  rewrite H. intros (c & Hc & _). discriminate Hc.
Qed.

(** C1, amended.  The default port 8051 is used when [ARCHON_MCP_PORT] is not
    set.  When it is set, its value goes to [int]: a value that [int] accepts
    is the port, whatever its sign; a value that [int] rejects is not
    recovered, [configure] raises [ValueError] and the process reports a
    fatal error and exits with status 1. *)
Theorem C1_default_port_only_when_unset w :
  sigint w = None ->
  match environ w !! "ARCHON_MCP_PORT" with
  | None => fst (configure w initial) = Return (settings_of 8051)
  | Some v =>
      match PyInt.int v with
      | inr n => fst (configure w initial) = Return (settings_of n)
      | inl why =>
          fst (configure w initial) = Raise (ValueError why) /\
          script w = {| events := fatal_report (ValueError why);
                        ended := Exit 1 |}
      end
  end.
Proof.
  intros Hq. unfold script.
  rewrite (configure_quiet w Hq), (main_quiet w Hq). unfold port_text.
  destruct (environ w !! "ARCHON_MCP_PORT") as [v|]; simpl.
  - destruct (PyInt.int v) as [why|n]; [split|]; reflexivity.
  - reflexivity.
Qed.

(** With the variable unset, the port is 8051. *)
Lemma C1_witness :
  fst (configure world_unset initial) = Return (settings_of 8051).
Proof.
  exact (C1_default_port_only_when_unset world_unset eq_refl).
Defined.

(** C2.  When [ARCHON_MCP_PORT] is set to a text [p] that [int] reads as the
    positive integer [n], [configure] yields a configuration whose port is
    [n] (and whose bind address carries [n]). *)
Theorem C2_port_is_value_of_variable w p n :
  sigint w = None ->
  environ w !! "ARCHON_MCP_PORT" = Some p ->
  PyInt.int p = inr n ->
  0 < n ->
  positive_integer_text p = true /\
  fst (configure w initial) = Return (settings_of n) /\
  port (settings_of n) = n /\
  bind (config (settings_of n)) = ["0.0.0.0:" ++ PyInt.str n].
Proof.
  intros Hq Hp Hn Hpos. split.
  - unfold positive_integer_text. rewrite Hn. apply Z.ltb_lt, Hpos.
  - rewrite (configure_quiet w Hq). unfold port_text. rewrite Hp. simpl.
    rewrite Hn. repeat split.
Qed.

(** With the variable set to ["9000"], the port is 9000. *)
Lemma C2_witness :
  positive_integer_text "9000" = true /\
  fst (configure world_9000 initial) = Return (settings_of 9000) /\
  port (settings_of 9000) = 9000 /\
  bind (config (settings_of 9000)) = ["0.0.0.0:" ++ PyInt.str 9000].
Proof.
  apply (C2_port_is_value_of_variable world_9000 "9000" 9000).
  - reflexivity.
  - vm_compute. reflexivity.
  - vm_compute. reflexivity.
  - lia.
Defined.

(** What the [except KeyboardInterrupt] branch does when a
    [KeyboardInterrupt] does leave [asyncio.run(serve(app, config))]: the
    shutdown notice is the last thing the process prints, after the banner
    and the call of [serve], and the exit status is 0. *)
Lemma keyboard_interrupt_out_of_serve w n app :
  sigint w = None ->
  PyInt.int (port_text w) = inr n ->
  streamable_http_app_result w = Return app ->
  serve_result w app (config (settings_of n)) = Raise KeyboardInterrupt ->
  events (script w) =
    (banner_events n ++
     [CallStreamableHttpApp; CallServe app (config (settings_of n));
      stopped_notice])%list /\
  ended (script w) = Exit 0.
Proof.
  intros Hq Hn Ha Hs. unfold script.
  rewrite (main_quiet w Hq), Hn, Ha, Hs. split; reflexivity.
Qed.

(** C3, on the code.  When SIGINT arrives while [serve] runs, Hypercorn's own
    handler ends [serve] by a normal return, so [main] returns and the
    [except KeyboardInterrupt] branch of lines 58-59 is not entered: the
    exit status is 0, as C3 says, but the shutdown notice that C3 and the
    handler promise is not printed; the output ends with the call of
    [serve]. *)
Theorem C3_sigint_while_serving_prints_no_notice w n app :
  sigint w = None ->
  PyInt.int (port_text w) = inr n ->
  streamable_http_app_result w = Return app ->
  serve_result w app (config (settings_of n)) = hypercorn_serve_interrupted ->
  script w =
    {| events := banner_events n ++
                 [CallStreamableHttpApp; CallServe app (config (settings_of n))];
       ended := Exit 0 |} /\
  ~ In stopped_notice (events (script w)).
Proof.
  intros Hq Hn Ha Hs.
  assert (script w =
          {| events := banner_events n ++
                       [CallStreamableHttpApp;
                        CallServe app (config (settings_of n))];
             ended := Exit 0 |}) as Hscript.
  { unfold script. rewrite (main_quiet w Hq), Hn, Ha, Hs. reflexivity. }
  split; [exact Hscript|].
  rewrite Hscript. unfold stopped_notice. cbn. intuition discriminate.
Qed.

(** Port 9000, Ctrl-C while serving. *)
Lemma C3_sigint_while_serving_witness :
  script world_sigint_in_serve =
    {| events := banner_events 9000 ++
                 [CallStreamableHttpApp;
                  CallServe (AsgiApp 0) (config (settings_of 9000))];
       ended := Exit 0 |} /\
  ~ In stopped_notice (events (script world_sigint_in_serve)).
Proof.
  apply (C3_sigint_while_serving_prints_no_notice
           world_sigint_in_serve 9000 (AsgiApp 0)).
  - reflexivity.
  - vm_compute. reflexivity.
  - reflexivity.
  - reflexivity.
Defined.

(** C4, as stated, fails.  With [ARCHON_MCP_PORT=abc] the fault is the
    [ValueError] of [int]: the message line goes to standard output, the
    error stream receives the traceback only. *)
Lemma C4_counterexample :
  main world_abc initial =
    (Raise (ValueError (InvalidLiteral "abc")), {| clock := 2; trace := [] |}) /\
  written_to Stdout (events (script world_abc)) =
    [TextStr "💥 Fatal error: " (ValueError (InvalidLiteral "abc"))] /\
  written_to Stderr (events (script world_abc)) =
    [Traceback (ValueError (InvalidLiteral "abc"))] /\
  ~ In (Output Stderr
          (TextStr "💥 Fatal error: " (ValueError (InvalidLiteral "abc"))))
       (events (script world_abc)).
Proof.
  split; [vm_compute; reflexivity|].
  split; [vm_compute; reflexivity|].
  split; [vm_compute; reflexivity|].
  assert (events (script world_abc) =
          fatal_report (ValueError (InvalidLiteral "abc"))) as ->
    by (vm_compute; reflexivity).
  cbn. intuition discriminate.
Qed.

(** C4, amended.  Whenever an exception that derives from [Exception] leaves
    [main], during setup or serving, the process prints the diagnostic
    message to standard output, then the full traceback to the error stream,
    and exits with status 1. *)
Theorem C4_fault_reported w s e :
  main w initial = (Raise e, s) ->
  is_Exception e = true ->
  events (script w) =
    (trace s ++ [Output Stdout (TextStr "💥 Fatal error: " e);
                 Output Stderr (Traceback e)])%list /\
  ended (script w) = Exit 1.
Proof.
  intros Hm He. unfold script. rewrite Hm.
  destruct e; try discriminate He; split; reflexivity.
Qed.

(** The [ValueError] of [int("abc")]. *)
Lemma C4_witness :
  events (script world_abc) =
    [Output Stdout (TextStr "💥 Fatal error: " (ValueError (InvalidLiteral "abc")));
     Output Stderr (Traceback (ValueError (InvalidLiteral "abc")))] /\
  ended (script world_abc) = Exit 1.
Proof.
  apply (C4_fault_reported world_abc {| clock := 2; trace := [] |}
           (ValueError (InvalidLiteral "abc"))).
  - vm_compute. reflexivity.
  - reflexivity.
Defined.

(** C5.  Every configuration [configure] builds offers exactly the protocols
    ["h2"] and ["http/1.1"], in that order. *)
Theorem C5_protocols_h2_then_http11 w s c s' :
  configure w s = (Return c, s') ->
  alpn_protocols (config c) = ["h2"; "http/1.1"].
Proof.
  intros (n & _ & ->)%configure_Return. reflexivity.
Qed.

(** The configuration for port 9000. *)
Lemma C5_witness :
  alpn_protocols (config (settings_of 9000)) = ["h2"; "http/1.1"].
Proof.
  apply (C5_protocols_h2_then_http11 world_9000 initial (settings_of 9000)
           {| clock := 10; trace := [] |}).
  vm_compute. reflexivity.
Defined.

(** C6.  Whatever the environment, [configure] either stops at [int] or
    yields the host ["0.0.0.0"] and a bind address made of that host and the
    port; with [ARCHON_MCP_PORT=9000] it yields host ["0.0.0.0"], port 9000
    and the bind address ["0.0.0.0:9000"]. *)
Theorem C6_wildcard_host w :
  sigint w = None ->
  match fst (configure w initial) with
  | Return c =>
      host c = "0.0.0.0" /\
      bind (config c) = ["0.0.0.0:" ++ PyInt.str (port c)]
  | Raise e => exists why, e = ValueError why
  end /\
  (environ w !! "ARCHON_MCP_PORT" = Some "9000" ->
   exists c, fst (configure w initial) = Return c /\
             host c = "0.0.0.0" /\ port c = 9000 /\
             bind (config c) = ["0.0.0.0:9000"]).
Proof.
  intros Hq. rewrite (configure_quiet w Hq). split.
  - destruct (PyInt.int (port_text w)) as [why|n]; simpl; eauto.
  - unfold port_text. intros ->. simpl.
    exists (settings_of 9000). repeat split.
Qed.

(** The end-to-end scenario of the specification. *)
Lemma C6_witness :
  exists c, fst (configure world_9000 initial) = Return c /\
            host c = "0.0.0.0" /\ port c = 9000 /\
            bind (config c) = ["0.0.0.0:9000"].
Proof.
  apply (C6_wildcard_host world_9000).
  - reflexivity.
  - vm_compute. reflexivity.
Defined.

(** C7.  In every run in which [serve] is called, what happened before the
    call is exactly: the five banner lines on standard output, reporting the
    host, the port, that HTTP/2 is enabled and the served URL, and then the
    creation of the application. *)
Theorem C7_banner_before_serving w pre app cfg post :
  events (script w) = (pre ++ CallServe app cfg :: post)%list ->
  exists n,
    PyInt.int (port_text w) = inr n /\
    pre = [ Output Stdout (Text "🚀 Starting MCP server with Hypercorn");
            Output Stdout (Text "   Host: 0.0.0.0");
            Output Stdout (Text ("   Port: " ++ PyInt.str n));
            Output Stdout (Text "   HTTP/2: Enabled");
            Output Stdout
              (Text ("   URL: http://0.0.0.0:" ++ PyInt.str n ++ "/mcp"));
            CallStreamableHttpApp ].
Proof.
  intros Hev.
  destruct (script_events w) as (extra & Hscript & Hextra).
  destruct (main w initial) as [r s] eqn:Hmain. cbn [snd] in Hscript.
  assert (In (CallServe app cfg) (trace s)) as Hin.
  { assert (In (CallServe app cfg) (trace s ++ extra)) as Hin.
    { rewrite <- Hscript, Hev. apply in_or_app. right. left. reflexivity. }
    apply in_app_or in Hin as [Hin|Hin]; [exact Hin|].
    destruct (Hextra _ _ Hin). }
  destruct (main_serve_inv w r s app cfg Hmain Hin) as (n & Hn & _ & Htrace).
  exists n. split; [exact Hn|].
  rewrite Hscript, Htrace in Hev. cbn in Hev.
  do 6 (destruct pre as [|? pre]; [discriminate Hev|];
        cbn in Hev; injection Hev as <- Hev).
  destruct pre as [|ev pre]; [reflexivity|].
  exfalso. cbn in Hev. injection Hev as <- Hev.
  apply (Hextra app cfg). rewrite Hev. apply in_or_app. right. left. reflexivity.
Qed.

(** Port 9000: the banner precedes the call of [serve]. *)
Lemma C7_witness :
  exists n,
    PyInt.int (port_text world_9000) = inr n /\
    (banner_events 9000 ++ [CallStreamableHttpApp])%list =
      [ Output Stdout (Text "🚀 Starting MCP server with Hypercorn");
        Output Stdout (Text "   Host: 0.0.0.0");
        Output Stdout (Text ("   Port: " ++ PyInt.str n));
        Output Stdout (Text "   HTTP/2: Enabled");
        Output Stdout
          (Text ("   URL: http://0.0.0.0:" ++ PyInt.str n ++ "/mcp"));
        CallStreamableHttpApp ].
Proof.
  apply (C7_banner_before_serving world_9000
           (banner_events 9000 ++ [CallStreamableHttpApp])
           (AsgiApp 0) (config (settings_of 9000)) [stopped_notice]).
  vm_compute. reflexivity.
Defined.

(** C8.  Every configuration [configure] builds has one worker of class
    ["asyncio"], sends the access log and the error log to ["-"], Hypercorn's
    name for the standard streams of the process, and has log level
    ["INFO"]. *)
Theorem C8_one_asyncio_worker_and_logging w s c s' :
  configure w s = (Return c, s') ->
  workers (config c) = 1 /\
  worker_class (config c) = "asyncio" /\
  accesslog (config c) = Some "-" /\
  errorlog (config c) = Some "-" /\
  loglevel (config c) = "INFO".
Proof.
  intros (n & _ & ->)%configure_Return. repeat split.
Qed.

(** The configuration for port 9000. *)
Lemma C8_witness :
  workers (config (settings_of 9000)) = 1 /\
  worker_class (config (settings_of 9000)) = "asyncio" /\
  accesslog (config (settings_of 9000)) = Some "-" /\
  errorlog (config (settings_of 9000)) = Some "-" /\
  loglevel (config (settings_of 9000)) = "INFO".
Proof.
  apply (C8_one_asyncio_worker_and_logging world_9000 initial
           (settings_of 9000) {| clock := 10; trace := [] |}).
  vm_compute. reflexivity.
Defined.




(** C10.  The result of [configure] is a function of the value (or absence)
    of [ARCHON_MCP_PORT]: two runs that agree on it, and on when an interrupt
    arrives, produce the same configuration, whatever the rest of the
    environment, the defaults of [Config()] and the collaborators are. *)
Theorem C10_configuration_depends_on_port_variable_only w1 w2 s :
  environ w1 !! "ARCHON_MCP_PORT" = environ w2 !! "ARCHON_MCP_PORT" ->
  sigint w1 = sigint w2 ->
  configure w1 s = configure w2 s.
Proof.
  destruct w1 as [env1 c1 ao1 so1 sg1], w2 as [env2 c2 ao2 so2 sg2].
  cbn [environ sigint]. intros Henv ->.
  unfold_program. cbn. rewrite Henv.
  do 2 (case_decide; [reflexivity|]; cbn).
  destruct (PyInt.int _) as [why|n]; cbn; [reflexivity|].
  do 8 (case_decide; [reflexivity|]; cbn).
  reflexivity.
Qed.

(** Two different processes with [ARCHON_MCP_PORT=9000]. *)
Lemma C10_witness :
  configure world_9000 initial = configure world_9000_elsewhere initial.
Proof.
  apply (C10_configuration_depends_on_port_variable_only
           world_9000 world_9000_elsewhere initial).
  - vm_compute. reflexivity.
  - reflexivity.
Defined.

(** ** More runs *)

Example run_interrupted_in_banner :
  script world_interrupted_in_banner =
    {| events := [ Output Stdout (Text "🚀 Starting MCP server with Hypercorn");
                   Output Stdout (Text "   Host: 0.0.0.0");
                   stopped_notice ];
       ended := Exit 0 |}.
Proof. vm_compute. reflexivity. Qed.

Example run_without_application :
  script world_9000_elsewhere =
    {| events := banner_events 9000 ++
                 CallStreamableHttpApp ::
                 fatal_report (ExceptionSubclass "RuntimeError" "no app");
       ended := Exit 1 |}.
Proof. vm_compute. reflexivity. Qed.

Example configure_port_zero :
  fst (configure (sample_world {[ "ARCHON_MCP_PORT" := "0" ]} (Return tt) None)
         initial) = Return (settings_of 0).
Proof. vm_compute. reflexivity. Qed.

Example configure_port_negative :
  fst (configure (sample_world {[ "ARCHON_MCP_PORT" := "-5" ]} (Return tt) None)
         initial) = Return (settings_of (-5)).
Proof. vm_compute. reflexivity. Qed.

(** * Further properties of the runner *)

(** ** The order of events *)

Ltac stop_prefix := intros [= <- <-]; cbn; eexists; reflexivity.
Ltac next_prefix := case_decide; [stop_prefix|]; cbn.

Lemma main_trace_prefix w r s :
  main w initial = (r, s) -> trace s `prefix_of` full_trace w.
Proof.
  unfold full_trace, port_text. destruct w as [env c0 ao so sg].
  unfold_program. cbn.
  do 2 next_prefix.
  destruct (PyInt.int _) as [why|n]; cbn; [stop_prefix|].
  destruct ao as [a|e]; cbn.
  - do 15 next_prefix. intros [= <- <-]; cbn.
    eexists. rewrite app_nil_r. reflexivity.
  - do 14 next_prefix. intros [= <- <-]; cbn.
    eexists. rewrite app_nil_r. reflexivity.
Qed.

Lemma count_serve_app l k :
  count_serve (l ++ k) = (count_serve l + count_serve k)%nat.
Proof. induction l as [|[]]; cbn; congruence. Qed.

Lemma count_factory_app l k :
  count_factory (l ++ k) = (count_factory l + count_factory k)%nat.
Proof. induction l as [|[]]; cbn; congruence. Qed.

Lemma written_to_app st l k :
  written_to st (l ++ k) = (written_to st l ++ written_to st k)%list.
Proof.
  induction l as [|[to c| |] l IH]; cbn; try assumption; [reflexivity|].
  destruct st, to; cbn; congruence.
Qed.

(** What [full_trace] holds: one call of each collaborator at most, nothing
    for the error stream, no shutdown notice. *)
Lemma full_trace_contents w :
  (count_serve (full_trace w) <= 1)%nat /\
  (count_factory (full_trace w) <= 1)%nat /\
  written_to Stderr (full_trace w) = [] /\
  ~ In stopped_notice (full_trace w).
Proof.
  unfold full_trace, stopped_notice.
  destruct (PyInt.int _) as [why|n]; cbn; [intuition lia|].
  destruct (streamable_http_app_result w); cbn;
    (split; [lia|]); (split; [lia|]); (split; [reflexivity|]);
    intuition discriminate.
Qed.

(** The events of a run: those of [main], then what the handlers add. *)
Lemma script_split w :
  events (script w) =
    (trace (snd (main w initial)) ++
     match fst (main w initial) with
     | Return _ => []
     | Raise KeyboardInterrupt => [stopped_notice]
     | Raise e => if is_Exception e then fatal_report e else []
     end)%list.
Proof.
  unfold script. destruct (main w initial) as [[u|e] s]; cbn [fst snd].
  - cbn. rewrite app_nil_r. reflexivity.
  - destruct e; cbn; rewrite ?app_nil_r; reflexivity.
Qed.

(** X1.  Whatever the environment, the collaborators and the moment of an
    interrupt, what [main] has printed and called when it ends is an initial
    segment of one fixed sequence: the five banner lines, the creation of
    the application, the call of [serve].  Nothing is skipped, repeated or
    reordered. *)
Theorem run_is_initial_segment w :
  trace (snd (main w initial)) `prefix_of` full_trace w.
Proof.
  destruct (main w initial) as [r s] eqn:Hmain.
  exact (main_trace_prefix w r s Hmain).
Qed.

(** X2.  In every run [serve] is called at most once and the application is
    created at most once: the script never retries. *)
Theorem serve_called_at_most_once w :
  (count_serve (events (script w)) <= 1)%nat /\
  (count_factory (events (script w)) <= 1)%nat.
Proof.
  destruct (main w initial) as [r s] eqn:Hmain.
  destruct (main_trace_prefix w r s Hmain) as [k Hk].
  destruct (full_trace_contents w) as (Hs & Hf & _ & _).
  rewrite Hk, count_serve_app in Hs. rewrite Hk, count_factory_app in Hf.
  rewrite script_split, Hmain, count_serve_app, count_factory_app.
  cbn [fst snd].
  destruct r as [u|e]; [cbn; lia|].
  destruct e; cbn; lia.
Qed.

(** X3.  The script writes to the error stream in one case only: when an
    exception that derives from [Exception] leaves [main], and then it
    writes the traceback of that exception and nothing else.  The banner,
    the shutdown notice and the fatal-error line all go to standard
    output. *)
Theorem error_stream_only_traceback w :
  written_to Stderr (events (script w)) =
    match fst (main w initial) with
    | Raise e => if is_Exception e then [Traceback e] else []
    | Return _ => []
    end.
Proof.
  destruct (main w initial) as [r s] eqn:Hmain.
  destruct (main_trace_prefix w r s Hmain) as [k Hk].
  destruct (full_trace_contents w) as (_ & _ & He & _).
  rewrite Hk, written_to_app in He. apply app_eq_nil in He as [He _].
  rewrite script_split, Hmain. cbn [fst snd]. rewrite written_to_app, He.
  destruct r as [u|e]; [reflexivity|].
  destruct e; reflexivity.
Qed.

(** X4.  The shutdown notice appears in the output of a run exactly when
    [main] ended in [KeyboardInterrupt]. *)
Theorem notice_iff_keyboard_interrupt w :
  In stopped_notice (events (script w)) <->
  fst (main w initial) = Raise KeyboardInterrupt.
Proof.
  destruct (main w initial) as [r s] eqn:Hmain.
  destruct (main_trace_prefix w r s Hmain) as [k Hk].
  destruct (full_trace_contents w) as (_ & _ & _ & Hn).
  assert (~ In stopped_notice (trace s)) as Hn'.
  { intros Hin. apply Hn. rewrite Hk. apply in_or_app. left. exact Hin. }
  rewrite script_split, Hmain. cbn [fst snd]. split.
  - intros [Hin|Hin]%in_app_or; [destruct (Hn' Hin)|].
    destruct r as [u|e]; [destruct Hin|].
    destruct e; cbn in Hin; unfold stopped_notice in Hin;
      try reflexivity; intuition discriminate.
  - intros ->. apply in_or_app. right. left. reflexivity.
Qed.

(** ** How a run ends *)

(** X5.  When [asyncio.run(serve(app, config))] returns, the process ends
    with exit status 0 and prints nothing after the banner: no shutdown
    notice. *)
Theorem graceful_return_is_silent w n app :
  sigint w = None ->
  PyInt.int (port_text w) = inr n ->
  streamable_http_app_result w = Return app ->
  serve_result w app (config (settings_of n)) = Return tt ->
  script w =
    {| events := banner_events n ++
                 [CallStreamableHttpApp; CallServe app (config (settings_of n))];
       ended := Exit 0 |}.
Proof.
  intros Hq Hn Ha Hs. unfold script.
  rewrite (main_quiet w Hq), Hn, Ha, Hs. reflexivity.
Qed.

(** Port 9000, the server returns. *)
Lemma graceful_return_is_silent_witness :
  script world_graceful =
    {| events := banner_events 9000 ++
                 [CallStreamableHttpApp;
                  CallServe (AsgiApp 0) (config (settings_of 9000))];
       ended := Exit 0 |}.
Proof.
  apply (graceful_return_is_silent world_graceful 9000 (AsgiApp 0)).
  - reflexivity.
  - vm_compute. reflexivity.
  - reflexivity.
  - reflexivity.
Defined.

(** X6.  An exception that derives from [BaseException] only, such as
    [SystemExit] or [asyncio.CancelledError], is caught by neither handler
    when it leaves [serve]: the script prints no notice and no fatal-error
    report, does not call [sys.exit(1)], and leaves the exception to the
    interpreter. *)
Theorem base_exception_not_handled w n app cls msg :
  sigint w = None ->
  PyInt.int (port_text w) = inr n ->
  streamable_http_app_result w = Return app ->
  serve_result w app (config (settings_of n)) =
    Raise (BaseExceptionSubclass cls msg) ->
  script w =
    {| events := banner_events n ++
                 [CallStreamableHttpApp; CallServe app (config (settings_of n))];
       ended := Unhandled (BaseExceptionSubclass cls msg) |}.
Proof.
  intros Hq Hn Ha Hs. unfold script.
  rewrite (main_quiet w Hq), Hn, Ha, Hs. reflexivity.
Qed.

(** Port 9000, the server ends in [SystemExit]. *)
Lemma base_exception_not_handled_witness :
  script world_system_exit =
    {| events := banner_events 9000 ++
                 [CallStreamableHttpApp;
                  CallServe (AsgiApp 0) (config (settings_of 9000))];
       ended := Unhandled (BaseExceptionSubclass "SystemExit" "3") |}.
Proof.
  apply (base_exception_not_handled world_system_exit 9000 (AsgiApp 0)).
  - reflexivity.
  - vm_compute. reflexivity.
  - reflexivity.
  - reflexivity.
Defined.

(** X7.  When [mcp.streamable_http_app()] raises an exception that derives
    from [Exception], the whole banner, including the URL, has been printed
    already; [serve] is not called, the fatal-error report follows the
    banner and the exit status is 1. *)
Theorem factory_fault_after_banner w n e :
  sigint w = None ->
  PyInt.int (port_text w) = inr n ->
  streamable_http_app_result w = Raise e ->
  is_Exception e = true ->
  script w =
    {| events := banner_events n ++ CallStreamableHttpApp :: fatal_report e;
       ended := Exit 1 |}.
Proof.
  intros Hq Hn Ha He. unfold script.
  rewrite (main_quiet w Hq), Hn, Ha.
  destruct e; try discriminate He; reflexivity.
Qed.

(** Port 9000, no application. *)
Lemma factory_fault_after_banner_witness :
  script world_9000_elsewhere =
    {| events := banner_events 9000 ++
                 CallStreamableHttpApp ::
                 fatal_report (ExceptionSubclass "RuntimeError" "no app");
       ended := Exit 1 |}.
Proof.
  apply (factory_fault_after_banner world_9000_elsewhere 9000).
  - reflexivity.
  - vm_compute. reflexivity.
  - reflexivity.
  - reflexivity.
Defined.

(** X8.  The configuration [serve] receives agrees with the banner: in every
    run in which [serve] is called, its configuration is the one built for
    the integer [n] read from the environment, its bind address is
    ["0.0.0.0:n"], and the banner of that run shows the same [n] in its port
    line and in its URL. *)
Theorem served_config_matches_banner w app cfg :
  In (CallServe app cfg) (events (script w)) ->
  exists n,
    PyInt.int (port_text w) = inr n /\
    cfg = config (settings_of n) /\
    bind cfg = ["0.0.0.0:" ++ PyInt.str n] /\
    In (Output Stdout (Text ("   Port: " ++ PyInt.str n))) (events (script w)) /\
    In (Output Stdout (Text ("   URL: http://0.0.0.0:" ++ PyInt.str n ++ "/mcp")))
       (events (script w)).
Proof.
  intros Hin.
  destruct (script_events w) as (extra & Hscript & Hextra).
  destruct (main w initial) as [r s] eqn:Hmain. cbn [snd] in Hscript.
  rewrite Hscript in Hin |- *.
  apply in_app_or in Hin as [Hin|Hin]; [|destruct (Hextra _ _ Hin)].
  destruct (main_serve_inv w r s app cfg Hmain Hin) as (n & Hn & -> & ->).
  exists n. split; [exact Hn|]. split; [reflexivity|]. split; [reflexivity|].
  split; apply in_or_app; left; cbn; auto 8.
Qed.

(** Port 9000. *)
Lemma served_config_matches_banner_witness :
  exists n,
    PyInt.int (port_text world_9000) = inr n /\
    config (settings_of 9000) = config (settings_of n) /\
    bind (config (settings_of 9000)) = ["0.0.0.0:" ++ PyInt.str n] /\
    In (Output Stdout (Text ("   Port: " ++ PyInt.str n)))
       (events (script world_9000)) /\
    In (Output Stdout (Text ("   URL: http://0.0.0.0:" ++ PyInt.str n ++ "/mcp")))
       (events (script world_9000)).
Proof.
  apply (served_config_matches_banner world_9000 (AsgiApp 0)
           (config (settings_of 9000))).
  vm_compute. auto 10.
Defined.

(** ** What [int] makes of the port text *)

Section SpaceCharacters.
Import PyInt.
Variable c : ascii.
Hypothesis Hc : Py_ISSPACE c = true.

Lemma space_range : (9 <= code c <= 13)%N \/ code c = 32%N.
Proof.
  unfold Py_ISSPACE in Hc. apply orb_prop in Hc as [H|H].
  - apply andb_prop in H as [H1 H2]. apply N.leb_le in H1, H2. left. lia.
  - apply N.eqb_eq in H. right. exact H.
Qed.

Lemma space_is_ascii : (code c <? 128)%N = true.
Proof. pose proof space_range. apply N.ltb_lt. lia. Qed.

Lemma space_not_digit : digit_value c = None.
Proof.
  pose proof space_range. unfold digit_value.
  rewrite (proj2 (andb_false_iff _ _)); [reflexivity|].
  destruct (N.leb_spec 48 (code c));
    [right; apply N.leb_gt; lia | left; reflexivity].
Qed.

Lemma space_not_underscore : is_underscore c = false.
Proof. pose proof space_range. unfold is_underscore. apply N.eqb_neq. lia. Qed.

End SpaceCharacters.

Lemma append_String c a b : String c a ++ b = String c (a ++ b).
Proof. reflexivity. Qed.

Lemma append_Empty b : EmptyString ++ b = b.
Proof. reflexivity. Qed.

Lemma append_Empty_r a : a ++ EmptyString = a.
Proof.
  induction a as [|c a IH]; [reflexivity|].
  rewrite append_String, IH. reflexivity.
Qed.

Lemma is_ascii_text_app a b :
  PyInt.is_ascii_text (a ++ b) = PyInt.is_ascii_text a && PyInt.is_ascii_text b.
Proof.
  induction a as [|c a IH]; [reflexivity|].
  rewrite append_String. cbn [PyInt.is_ascii_text].
  rewrite IH, andb_assoc. reflexivity.
Qed.

Lemma all_spaces_ascii s : all_spaces s = true -> PyInt.is_ascii_text s = true.
Proof.
  induction s as [|c r IH]; [reflexivity|]. cbn [all_spaces PyInt.is_ascii_text].
  intros [Hc Hr]%andb_prop. rewrite (space_is_ascii c Hc), (IH Hr). reflexivity.
Qed.

Lemma skip_spaces_app l s :
  all_spaces l = true -> PyInt.skip_spaces (l ++ s) = PyInt.skip_spaces s.
Proof.
  induction l as [|c l IH]; [reflexivity|].
  rewrite append_String. cbn [all_spaces PyInt.skip_spaces].
  intros [Hc Hl]%andb_prop. rewrite Hc. exact (IH Hl).
Qed.

Lemma skip_all_spaces s :
  all_spaces s = true -> PyInt.skip_spaces s = EmptyString.
Proof.
  induction s as [|c r IH]; [reflexivity|]. cbn [all_spaces PyInt.skip_spaces].
  intros [Hc Hr]%andb_prop. rewrite Hc. exact (IH Hr).
Qed.

(** Blank text, the empty text included, is no integer literal. *)
Lemma int_blank v :
  all_spaces v = true -> PyInt.int v = inl (InvalidLiteral v).
Proof.
  intros Hv. unfold PyInt.int, PyInt.TransformDecimalAndSpaceToASCII.
  rewrite (all_spaces_ascii v Hv). unfold PyInt.from_string.
  rewrite (skip_all_spaces v Hv). reflexivity.
Qed.

(** The scan reads the digits and stops at the spaces that follow. *)
Lemma scan_digits_then_spaces d r : forall n a,
  DecimalLiteral.all_digits d = true ->
  all_spaces r = true ->
  PyInt.scan (d ++ r)
    {| PyInt.prev_us := false; PyInt.ndigits := n; PyInt.acc := a |} =
    Some ({| PyInt.prev_us := false;
             PyInt.ndigits := n + String.length d;
             PyInt.acc := DecimalLiteral.value_from a d |}, r).
Proof.
  induction d as [|c d IH]; intros n a Hd Hr.
  - rewrite append_Empty. cbn [String.length DecimalLiteral.value_from].
    rewrite Nat.add_0_r.
    destruct r as [|c r]; [reflexivity|].
    cbn [all_spaces] in Hr. apply andb_prop in Hr as [Hc _].
    cbn [PyInt.scan PyInt.prev_us].
    rewrite (space_not_digit c Hc), (space_not_underscore c Hc). reflexivity.
  - cbn [DecimalLiteral.all_digits] in Hd. apply andb_prop in Hd as [Hc Hd].
    rewrite append_String. cbn [PyInt.scan]. rewrite (digit_value_digit c Hc).
    cbn [PyInt.prev_us PyInt.ndigits PyInt.acc].
    rewrite (IH _ _ Hd Hr). cbn [String.length DecimalLiteral.value_from].
    rewrite Nat.add_succ_r. reflexivity.
Qed.

(** Once the spaces in front and the sign are taken off, a decimal literal
    followed by spaces is read as its value, with the sign. *)
Lemma from_string_literal orig buf negative d r :
  PyInt.split_sign (PyInt.skip_spaces buf) = (negative, d ++ r) ->
  d <> EmptyString ->
  DecimalLiteral.all_digits d = true ->
  (String.length d <= PyInt.max_str_digits)%nat ->
  all_spaces r = true ->
  PyInt.from_string orig buf =
    inr (if negative then - DecimalLiteral.value d else DecimalLiteral.value d).
Proof.
  intros Hsplit Hne Hd Hlen Hr. unfold PyInt.from_string. rewrite Hsplit.
  destruct d as [|c d]; [congruence|].
  pose proof Hd as Hd'. cbn [DecimalLiteral.all_digits] in Hd'.
  apply andb_prop in Hd' as [Hc _].
  rewrite append_String. cbv iota beta. rewrite (digit_not_underscore c Hc).
  rewrite <- append_String.
  rewrite (scan_digits_then_spaces _ _ _ _ Hd Hr).
  cbn [PyInt.ndigits PyInt.acc]. rewrite Nat.add_0_l.
  rewrite (proj2 (Nat.ltb_ge _ _) Hlen).
  cbn [String.length Nat.eqb]. rewrite (skip_all_spaces r Hr). reflexivity.
Qed.

Section PaddedLiteral.
Variables l d r : string.
Hypothesis Hl : all_spaces l = true.
Hypothesis Hr : all_spaces r = true.
Hypothesis Hne : d <> EmptyString.
Hypothesis Hd : DecimalLiteral.all_digits d = true.
Hypothesis Hlen : (String.length d <= PyInt.max_str_digits)%nat.

Lemma padded_is_ascii sg :
  PyInt.is_ascii_text (l ++ sign_text sg ++ d ++ r) = true.
Proof.
  rewrite !is_ascii_text_app.
  rewrite (all_spaces_ascii l Hl), (all_spaces_ascii r Hr), (all_digits_ascii d Hd).
  destruct sg; reflexivity.
Qed.

Lemma padded_split sg :
  PyInt.split_sign (PyInt.skip_spaces (l ++ sign_text sg ++ d ++ r)) =
    (match sg with Minus => true | Unsigned | Plus => false end, d ++ r).
Proof.
  rewrite (skip_spaces_app l _ Hl). destruct sg; try reflexivity.
  cbn [sign_text]. rewrite append_Empty.
  destruct d as [|c d']; [congruence|].
  pose proof Hd as Hd'. cbn [DecimalLiteral.all_digits] in Hd'.
  apply andb_prop in Hd' as [Hc _].
  rewrite append_String.
  cbn [PyInt.skip_spaces]. rewrite (digit_not_space c Hc).
  apply (digit_not_sign c Hc).
Qed.

Lemma int_padded_signed sg :
  PyInt.int (l ++ sign_text sg ++ d ++ r) =
    inr (signed sg (DecimalLiteral.value d)).
Proof.
  unfold PyInt.int, PyInt.TransformDecimalAndSpaceToASCII.
  rewrite (padded_is_ascii sg).
  rewrite (from_string_literal _ _ _ d r (padded_split sg) Hne Hd Hlen Hr).
  destruct sg; reflexivity.
Qed.

End PaddedLiteral.

(** More than 4300 digits are refused, whatever their value. *)
Lemma int_digit_limit d :
  DecimalLiteral.all_digits d = true ->
  (PyInt.max_str_digits < String.length d)%nat ->
  PyInt.int d = inl (ExceedsDigitLimit (String.length d)).
Proof.
  intros Hd Hlen. unfold PyInt.int, PyInt.TransformDecimalAndSpaceToASCII.
  rewrite (all_digits_ascii d Hd).
  destruct d as [|c r]; [cbn in Hlen; lia|].
  pose proof Hd as Hd'. cbn [DecimalLiteral.all_digits] in Hd'.
  apply andb_prop in Hd' as [Hc Hr].
  unfold PyInt.from_string. cbn [PyInt.skip_spaces].
  rewrite (digit_not_space c Hc), (digit_not_sign c Hc).
  rewrite (digit_not_underscore c Hc), (scan_all_digits _ _ _ Hd).
  cbn [PyInt.ndigits PyInt.acc]. rewrite Nat.add_0_l.
  rewrite (proj2 (Nat.ltb_lt _ _) Hlen). reflexivity.
Qed.

(** X9.  A variable that is set but empty, or holds blanks only, is not
    treated as unset: [int] rejects it, nothing is printed before the
    fatal-error report and the exit status is 1. *)
Theorem blank_port_is_fatal w v :
  sigint w = None ->
  environ w !! "ARCHON_MCP_PORT" = Some v ->
  all_spaces v = true ->
  script w = {| events := fatal_report (ValueError (InvalidLiteral v));
                ended := Exit 1 |}.
Proof.
  intros Hq Hv Hsp. unfold script. rewrite (main_quiet w Hq).
  unfold port_text. rewrite Hv. simpl. rewrite (int_blank v Hsp). reflexivity.
Qed.

(** The variable is set to the empty text. *)
Lemma blank_port_is_fatal_witness :
  script world_empty =
    {| events := fatal_report (ValueError (InvalidLiteral ""));
       ended := Exit 1 |}.
Proof.
  apply (blank_port_is_fatal world_empty "").
  - reflexivity.
  - vm_compute. reflexivity.
  - reflexivity.
Defined.

(** X10.  Blanks around the value, a sign and leading zeros are accepted:
    when the variable is blanks, an optional ["+"] or ["-"], a decimal
    literal of at most 4300 digits and blanks again, the port is the value
    of the literal with that sign, and the bind address shows it in
    canonical form. *)
Theorem padded_signed_port w l sg d r :
  sigint w = None ->
  environ w !! "ARCHON_MCP_PORT" = Some (l ++ sign_text sg ++ d ++ r) ->
  all_spaces l = true ->
  all_spaces r = true ->
  d <> EmptyString ->
  DecimalLiteral.all_digits d = true ->
  (String.length d <= PyInt.max_str_digits)%nat ->
  fst (configure w initial) =
    Return (settings_of (signed sg (DecimalLiteral.value d))).
Proof.
  intros Hq Hv Hl Hr Hne Hd Hlen. rewrite (configure_quiet w Hq).
  unfold port_text. rewrite Hv. simpl.
  rewrite (int_padded_signed l d r Hl Hr Hne Hd Hlen sg). reflexivity.
Qed.

(** [ARCHON_MCP_PORT=" +09000 "] gives port 9000. *)
Lemma padded_signed_port_witness :
  fst (configure world_padded initial) =
    Return (settings_of (signed Plus (DecimalLiteral.value "09000"))).
Proof.
  apply (padded_signed_port world_padded " " Plus "09000" " ").
  - reflexivity.
  - vm_compute. reflexivity.
  - reflexivity.
  - reflexivity.
  - discriminate.
  - reflexivity.
  - vm_compute. lia.
Defined.

(** X11.  A value of more than 4300 digits is refused by [int] whatever its
    value: the process reports [ValueError] for the digit limit and exits
    with status 1. *)
Theorem too_many_digits_is_fatal w d :
  sigint w = None ->
  environ w !! "ARCHON_MCP_PORT" = Some d ->
  DecimalLiteral.all_digits d = true ->
  (PyInt.max_str_digits < String.length d)%nat ->
  script w =
    {| events := fatal_report (ValueError (ExceedsDigitLimit (String.length d)));
       ended := Exit 1 |}.
Proof.
  intros Hq Hv Hd Hlen. unfold script. rewrite (main_quiet w Hq).
  unfold port_text. rewrite Hv. simpl.
  rewrite (int_digit_limit d Hd Hlen). reflexivity.
Qed.

(** 4301 digits. *)
Lemma too_many_digits_is_fatal_witness :
  script world_long =
    {| events :=
         fatal_report (ValueError (ExceedsDigitLimit (String.length long_literal)));
       ended := Exit 1 |}.
Proof.
  apply (too_many_digits_is_fatal world_long long_literal).
  - reflexivity.
  - vm_compute. reflexivity.
  - vm_compute. reflexivity.
  - vm_compute. lia.
Defined.

(** ** [str] and [int] *)

Lemma all_digits_string_of_uint d :
  DecimalLiteral.all_digits (NilEmpty.string_of_uint d) = true.
Proof.
  induction d; cbn [NilEmpty.string_of_uint DecimalLiteral.all_digits];
    [reflexivity|..]; rewrite IHd; reflexivity.
Qed.

Lemma value_from_string_of_uint_acc d : forall acc,
  DecimalLiteral.value_from (Z.pos acc) (NilEmpty.string_of_uint d) =
  Z.pos (Pos.of_uint_acc d acc).
Proof.
  induction d as [|d IH|d IH|d IH|d IH|d IH|d IH|d IH|d IH|d IH|d IH];
    intros acc; [reflexivity|..];
    cbn [NilEmpty.string_of_uint DecimalLiteral.value_from Pos.of_uint_acc];
    rewrite <- IH; f_equal; cbn [N_of_ascii N_of_digits]; lia.
Qed.

Lemma value_string_of_uint d :
  DecimalLiteral.value (NilEmpty.string_of_uint d) = Z.of_N (Pos.of_uint d).
Proof.
  unfold DecimalLiteral.value.
  induction d as [|d IH|d IH|d IH|d IH|d IH|d IH|d IH|d IH|d IH|d IH];
    [reflexivity|exact IH|..];
    cbn [NilEmpty.string_of_uint DecimalLiteral.value_from Pos.of_uint Z.of_N];
    rewrite <- value_from_string_of_uint_acc; reflexivity.
Qed.

(** [str] of a positive and of a negative integer. *)
Lemma str_pos p :
  PyInt.str (Z.pos p) = NilEmpty.string_of_uint (Pos.to_uint p) /\
  PyInt.str (Z.neg p) = "-" ++ NilEmpty.string_of_uint (Pos.to_uint p) /\
  NilEmpty.string_of_uint (Pos.to_uint p) <> EmptyString /\
  DecimalLiteral.value (NilEmpty.string_of_uint (Pos.to_uint p)) = Z.pos p.
Proof.
  pose proof (DecimalPos.Unsigned.to_uint_nonnil p) as Hnil.
  unfold PyInt.str. cbn [Z.to_int NilZero.string_of_int NilZero.string_of_uint].
  rewrite value_string_of_uint, DecimalPos.Unsigned.of_to.
  destruct (Pos.to_uint p); try congruence; repeat split; discriminate.
Qed.

(** X12.  The port that the banner and the bind address show reads back as
    the same integer: [int(str(n))] is [n] for every integer whose decimal
    form has at most 4300 digits, negative ones included. *)
Theorem int_str_round_trip n :
  (String.length (PyInt.str (Z.abs n)) <= PyInt.max_str_digits)%nat ->
  PyInt.int (PyInt.str n) = inr n.
Proof.
  destruct n as [|p|p]; intros Hlen.
  - reflexivity.
  - change (Z.abs (Z.pos p)) with (Z.pos p) in Hlen.
    destruct (str_pos p) as (Hs & _ & Hne & Hv).
    rewrite Hs in Hlen |- *. rewrite <- Hv.
    apply int_decimal_literal;
      [exact Hne | apply all_digits_string_of_uint | exact Hlen].
  - change (Z.abs (Z.neg p)) with (Z.pos p) in Hlen.
    destruct (str_pos p) as (Hs & Hs' & Hne & Hv).
    rewrite Hs in Hlen. rewrite Hs'.
    change (Z.neg p) with (signed Minus (Z.pos p)). rewrite <- Hv.
    pose proof (int_padded_signed EmptyString _ EmptyString eq_refl eq_refl Hne
                  (all_digits_string_of_uint _) Hlen Minus) as H.
    rewrite append_Empty, append_Empty_r in H. exact H.
Qed.

(** Port -8051. *)
Lemma int_str_round_trip_witness :
  PyInt.int (PyInt.str (-8051)) = inr (-8051).
Proof.
  apply (int_str_round_trip (-8051)). vm_compute. lia.
Defined.
